(** * Either monad library: a shallow embedding and its properties

    The development follows the two source files of the library:
    - [either.ts]: the class [Either] (module [Either] below);
    - [either-types.ts]: the free functions [safeSync], [safeAsync],
      [fromNullable], [fromPredicate], [sequence], [partition], [traverse]
      and [sequenceAll] (module [EitherTypes] below).

    TypeScript types are erased when the program runs, so the embedding is
    over one universe of run-time values, [JsValue]; a computation that may
    throw is a [Completion]. *)

From Stdlib Require Import List String Ascii ZArith Bool Lia DecimalString.
Import ListNotations.

Set Warnings "-register-all".

(** ** Run-time values *)

(** The values the library handles.  A number is an integer-valued finite
    number; a string is a sequence of code units below 256.  [JErrorObject]
    is an instance of [Error] or of a subclass named [cls], without
    enumerable own properties.  [JInstance] is an object made by
    [new Either(value, error, _isOk)].  [JBackRef] stands, inside an object
    or array, for a reference back to one of the objects enclosing it: it is
    how a cyclic structure is written as a finite term.  The universe is
    plain data: it has no function, symbol or BigInt value, and no object
    with an accessor or a [toJSON] method. *)
Inductive JsValue : Type :=
| JUndefined
| JNull
| JBool (b : bool)
| JNumber (n : Z)
| JString (s : string)
| JArray (items : list JsValue)
| JObject (props : list (string * JsValue))
| JErrorObject (cls : string) (message : string)
| JInstance (value error : JsValue) (_isOk : bool)
| JBackRef (depth : nat).

(** The result of running a piece of code: it returns or it throws. *)
Inductive Completion (A : Type) : Type :=
| Normal (result : A)
| Throw (thrown : JsValue).

Arguments Normal {A} result.
Arguments Throw {A} thrown.

Definition bind {A B : Type} (c : Completion A) (k : A -> Completion B)
  : Completion B :=
  match c with
  | Normal a => k a
  | Throw t => Throw t
  end.

Declare Scope completion_scope.
Delimit Scope completion_scope with completion.
Notation "x <- c ;; k" := (bind c (fun x => k))
  (at level 61, c at next level, right associativity) : completion_scope.
Notation "c ;;; k" := (bind c (fun _ => k))
  (at level 61, right associativity) : completion_scope.
Local Open Scope completion_scope.

(** [try { body } catch (e) { handler(e) }] *)
Definition try_catch {A : Type} (body : Completion A)
  (handler : JsValue -> Completion A) : Completion A :=
  match body with
  | Normal a => Normal a
  | Throw e => handler e
  end.

(** A settled promise. *)
Inductive Settled (A : Type) : Type :=
| Fulfilled (result : A)
| Rejected (reason : JsValue).

Arguments Fulfilled {A} result.
Arguments Rejected {A} reason.

(** A constructor of error objects, [new (message?: string) => T]; [None] is
    an absent message. *)
Definition Constructor : Type := option string -> JsValue.

(** [new cls(message)] for [Error] and for the subclasses that hand their
    argument to [super]: an absent message becomes the empty string. *)
Definition new_ErrorClass (cls : string) : Constructor :=
  fun message =>
    JErrorObject cls (match message with Some m => m | None => EmptyString end).

Definition new_Error : Constructor := new_ErrorClass "Error".

(** ** either.ts *)

(** An instance of the class: the three private fields of the constructor. *)
Record Either : Type := new_Either {
  value : JsValue;
  error : JsValue;
  _isOk : bool
}.

(** An instance seen as a run-time value, and the test [v instanceof Either]. *)
Definition to_JsValue (e : Either) : JsValue :=
  JInstance (value e) (error e) (_isOk e).

Definition instanceof_Either (v : JsValue) : option Either :=
  match v with
  | JInstance val err ok => Some (new_Either val err ok)
  | _ => None
  end.

Module Either.

Definition Ok (value : JsValue) : Either :=
  new_Either value JUndefined true.

Definition Error (error : JsValue) : Either :=
  new_Either JUndefined error false.

Definition isOk (this : Either) : bool := _isOk this.

Definition isError (this : Either) : bool := negb (_isOk this).

Definition getValue (this : Either) : Completion JsValue :=
  if negb (isOk this)
  then Throw (new_Error (Some "Cannot access value in a non-Ok instance"%string))
  else Normal (value this).

Definition getError (this : Either) : Completion JsValue :=
  if negb (isError this)
  then Throw (new_Error (Some "Cannot access error in a non-Error instance"%string))
  else Normal (error this).

Definition fold {R : Type} (this : Either)
  (fnError fnOk : JsValue -> Completion R) : Completion R :=
  if isError this then fnError (error this) else fnOk (value this).

Definition map (this : Either) (fn : JsValue -> Completion JsValue)
  : Completion Either :=
  if isOk this
  then (u <- fn (value this) ;; Normal (Ok u))
  else Normal (Error (error this)).

Definition flatMap (this : Either) (fn : JsValue -> Completion Either)
  : Completion Either :=
  if isOk this then fn (value this) else Normal (Error (error this)).

Definition mapError (this : Either) (fn : JsValue -> Completion JsValue)
  : Completion Either :=
  if isError this
  then (f <- fn (error this) ;; Normal (Error f))
  else Normal (Ok (value this)).

Definition getOrElse (this : Either) (defaultValue : JsValue) : JsValue :=
  if isOk this then value this else defaultValue.

Definition zip (this other : Either) : Completion Either :=
  if isError this
  then Normal (Error (error this))
  else if isError other
       then (e <- getError other ;; Normal (Error e))
       else (u <- getValue other ;; Normal (Ok (JArray [value this; u]))).

Definition zipWith (this other : Either)
  (fn : JsValue -> JsValue -> Completion JsValue) : Completion Either :=
  z <- zip this other ;;
  map z (fun pair =>
           match pair with
           | JArray (a :: b :: _) => fn a b
           | JArray [a] => fn a JUndefined
           | _ => fn JUndefined JUndefined
           end).

Definition filter (this : Either) (predicate : JsValue -> Completion bool)
  (error : JsValue) : Completion Either :=
  if isOk this
  then (keep <- predicate (value this) ;;
        Normal (if keep then this else Error error))
  else Normal (Error error).

Definition find (this : Either) (fn : JsValue -> Completion Either)
  : Completion Either :=
  flatMap this fn.

Definition toPromise (this : Either) : Settled JsValue :=
  if isOk this then Fulfilled (value this) else Rejected (error this).

Definition toOptional (this : Either) : JsValue :=
  if isOk this then value this else JUndefined.

Definition swap (this : Either) : Either :=
  if isOk this then Error (value this) else Ok (error this).

Definition recover (this : Either) (fn : JsValue -> Completion JsValue)
  : Completion Either :=
  if isError this
  then (v <- fn (error this) ;; Normal (Ok v))
  else Normal (Ok (value this)).

Definition recoverWith (this : Either) (fn : JsValue -> Completion Either)
  : Completion Either :=
  if isError this then fn (error this) else Normal this.

Definition tap (this : Either) (fn : JsValue -> Completion unit)
  : Completion Either :=
  (if isOk this then fn (value this) else Normal tt) ;;;
  Normal this.

Definition tapError (this : Either) (fn : JsValue -> Completion unit)
  : Completion Either :=
  (if isError this then fn (error this) else Normal tt) ;;;
  Normal this.

End Either.

(** ** Host functions used by either-types.ts *)

Module Host.

Local Open Scope string_scope.

(** [typeof v] *)
Definition typeof (v : JsValue) : string :=
  match v with
  | JUndefined => "undefined"
  | JBool _ => "boolean"
  | JNumber _ => "number"
  | JString _ => "string"
  | JNull | JArray _ | JObject _ | JErrorObject _ _
  | JInstance _ _ _ | JBackRef _ => "object"
  end.

(** [v === null] and [v === undefined] *)
Definition is_null (v : JsValue) : bool :=
  match v with JNull => true | _ => false end.

Definition is_undefined (v : JsValue) : bool :=
  match v with JUndefined => true | _ => false end.

(** [v instanceof Error], giving the [message] of the error object. *)
Definition instanceof_Error (v : JsValue) : option string :=
  match v with
  | JErrorObject _ message => Some message
  | _ => None
  end.

(** Decimal text of an integer-valued number, as the host prints the
    integers of magnitude below 10^21. *)
Definition Number_toString (n : Z) : string :=
  NilZero.string_of_int (Z.to_int n).

(** [String(v)] on the values that are not objects. On an object the host
    would call its [toString]; [extractErrorMessage] never asks for it. *)
Definition ToString (v : JsValue) : string :=
  match v with
  | JUndefined => "undefined"
  | JNull => "null"
  | JBool true => "true"
  | JBool false => "false"
  | JNumber n => Number_toString n
  | JString s => s
  | _ => "[object Object]"
  end.

Definition dquote : ascii := "034"%char.
Definition backslash : ascii := "092"%char.
Definition newline : string := String "010"%char EmptyString.

Definition hex_digit (n : nat) : ascii :=
  match n with
  | 10 => "a" | 11 => "b" | 12 => "c" | 13 => "d" | 14 => "e" | 15 => "f"
  | _ => ascii_of_nat (48 + n)
  end%char.

Definition escape (c : ascii) : string := String backslash (String c EmptyString).

(** One code unit of a quoted JSON string. *)
Definition quote_code_unit (c : ascii) : string :=
  let n := nat_of_ascii c in
  if Nat.eqb n 34 then escape dquote
  else if Nat.eqb n 92 then escape backslash
  else if Nat.eqb n 8 then escape "b"
  else if Nat.eqb n 9 then escape "t"
  else if Nat.eqb n 10 then escape "n"
  else if Nat.eqb n 12 then escape "f"
  else if Nat.eqb n 13 then escape "r"
  else if Nat.ltb n 32
       then String backslash
              ("u00" ++ String (hex_digit (n / 16))
                          (String (hex_digit (n mod 16)) EmptyString))
       else String c EmptyString.

Fixpoint quote_code_units (s : string) : string :=
  match s with
  | EmptyString => EmptyString
  | String c rest => quote_code_unit c ++ quote_code_units rest
  end.

Definition QuoteJSONString (s : string) : string :=
  String dquote (quote_code_units s ++ String dquote EmptyString).

Fixpoint spaces (n : nat) : string :=
  match n with
  | O => EmptyString
  | S k => String " "%char (spaces k)
  end.

(** The text of an object or array from the texts of its members. *)
Definition enclose (opening closing gap stepback indent : string)
  (partial : list string) : string :=
  match partial with
  | [] => opening ++ closing
  | _ =>
      if String.eqb gap EmptyString
      then opening ++ String.concat "," partial ++ closing
      else opening ++ newline ++ indent
           ++ String.concat ("," ++ newline ++ indent) partial
           ++ newline ++ stepback ++ closing
  end.

Definition member (gap key text : string) : string :=
  QuoteJSONString key ++ ":"
  ++ (if String.eqb gap EmptyString then EmptyString else " ") ++ text.

Definition TypeError : Constructor := new_ErrorClass "TypeError".

(** The error thrown on a cyclic structure; hosts append a description of
    the cycle to this message. *)
Definition circular_structure : JsValue :=
  TypeError (Some "Converting circular structure to JSON").

(** The serialization of one value at indentation [indent]; [None] is the
    host's [undefined], given for a value that has no JSON text. An absent
    member of an array is written [null], an absent property is left out,
    and meeting an object that is being serialized already throws. *)
Fixpoint SerializeJSONProperty (gap indent : string) (v : JsValue)
  {struct v} : Completion (option string) :=
  match v with
  | JUndefined => Normal None
  | JNull => Normal (Some "null")
  | JBool true => Normal (Some "true")
  | JBool false => Normal (Some "false")
  | JNumber n => Normal (Some (Number_toString n))
  | JString s => Normal (Some (QuoteJSONString s))
  | JArray items =>
      partial <-
        (fix elements (l : list JsValue) : Completion (list string) :=
           match l with
           | [] => Normal []
           | x :: l' =>
               strP <- SerializeJSONProperty gap (indent ++ gap) x ;;
               rest <- elements l' ;;
               Normal (match strP with Some t => t | None => "null" end :: rest)
           end) items ;;
      Normal (Some (enclose "[" "]" gap indent (indent ++ gap) partial))
  | JObject props =>
      partial <-
        (fix members (l : list (string * JsValue)) : Completion (list string) :=
           match l with
           | [] => Normal []
           | (key, x) :: l' =>
               strP <- SerializeJSONProperty gap (indent ++ gap) x ;;
               rest <- members l' ;;
               Normal (match strP with
                       | Some t => member gap key t :: rest
                       | None => rest
                       end)
           end) props ;;
      Normal (Some (enclose "{" "}" gap indent (indent ++ gap) partial))
  | JErrorObject _ _ => Normal (Some "{}")
  | JInstance val err ok =>
      strV <- SerializeJSONProperty gap (indent ++ gap) val ;;
      strE <- SerializeJSONProperty gap (indent ++ gap) err ;;
      let field key str :=
        match str with Some t => [member gap key t] | None => [] end in
      Normal (Some (enclose "{" "}" gap indent (indent ++ gap)
                      (field "value" strV ++ field "error" strE
                       ++ [member gap "_isOk" (if ok then "true" else "false")])))
  | JBackRef _ => Throw circular_structure
  end.

(** [JSON.stringify(v, null, space)] for a numeric [space]. *)
Definition JSON_stringify (v : JsValue) (space : nat)
  : Completion (option string) :=
  SerializeJSONProperty (spaces (Nat.min space 10)) EmptyString v.

End Host.

(** ** either-types.ts *)

Module EitherTypes.

Import Host.

Definition safeStringify (data : JsValue) : Completion (option string) :=
  JSON_stringify data 2.

(** The declared result is [string]; when the program runs it is whatever
    [JSON.stringify] gave, which the host allows to be [undefined]
    ([None]). *)
Definition extractErrorMessage (error : JsValue) : Completion (option string) :=
  match instanceof_Error error with
  | Some message => Normal (Some message)
  | None =>
      if String.eqb (typeof error) "string"
      then Normal (Some (ToString error))
      else if String.eqb (typeof error) "object" && negb (is_null error)
           then safeStringify error
           else Normal (Some (ToString error))
  end.

(** The body of an [async] function settles the promise it returns. *)
Definition settle {A : Type} (body : Completion A) : Settled A :=
  match body with
  | Normal a => Fulfilled a
  | Throw t => Rejected t
  end.

(** [await p]: the value of a fulfilled promise, a throw of the reason of a
    rejected one. *)
Definition await {A : Type} (p : Settled A) : Completion A :=
  match p with
  | Fulfilled a => Normal a
  | Rejected r => Throw r
  end.

(** [fn] is the call [fn()]: it throws, or gives a promise, seen here once
    it has settled. *)
Definition safeAsync (fn : unit -> Completion (Settled JsValue))
  (ErrClass : Constructor) : Settled Either :=
  settle
    (try_catch
       (p <- fn tt ;;
        value <- await p ;;
        match instanceof_Either value with
        | Some either => Normal either
        | None => Normal (Either.Ok value)
        end)
       (fun error =>
          msg <- extractErrorMessage error ;;
          Normal (Either.Error (ErrClass msg)))).

Definition safeSync (fn : unit -> Completion JsValue)
  (ErrClass : Constructor) : Completion Either :=
  try_catch
    (result <- fn tt ;; Normal (Either.Ok result))
    (fun error =>
       msg <- extractErrorMessage error ;;
       Normal (Either.Error (ErrClass msg))).

Definition fromNullable (value : JsValue) : Either :=
  if negb (is_null value) && negb (is_undefined value)
  then Either.Ok value
  else Either.Error (new_Error (Some "Value is null or undefined"%string)).

Definition fromPredicate (value : JsValue)
  (predicate : JsValue -> Completion bool) (error : JsValue)
  : Completion Either :=
  keep <- predicate value ;;
  Normal (if keep then Either.Ok value else Either.Error error).

(** The [for ... of] loop of [sequence], from the elements still to visit
    and the array [results] filled so far. *)
Fixpoint sequence_loop (eithers : list Either) (results : list JsValue)
  : Completion Either :=
  match eithers with
  | [] => Normal (Either.Ok (JArray results))
  | either :: rest =>
      if Either.isError either
      then (e <- Either.getError either ;; Normal (Either.Error e))
      else (v <- Either.getValue either ;;
            sequence_loop rest (results ++ [v]))
  end.

Definition sequence (eithers : list Either) : Completion Either :=
  sequence_loop eithers [].

Fixpoint partition_loop (eithers : list Either) (oks errors : list JsValue)
  : Completion (list JsValue * list JsValue) :=
  match eithers with
  | [] => Normal (oks, errors)
  | either :: rest =>
      if Either.isOk either
      then (v <- Either.getValue either ;;
            partition_loop rest (oks ++ [v]) errors)
      else (e <- Either.getError either ;;
            partition_loop rest oks (errors ++ [e]))
  end.

Definition partition (eithers : list Either)
  : Completion (list JsValue * list JsValue) :=
  partition_loop eithers [] [].

Fixpoint traverse_loop (values : list JsValue)
  (fn : JsValue -> Completion Either) (results : list JsValue)
  : Completion Either :=
  match values with
  | [] => Normal (Either.Ok (JArray results))
  | value :: rest =>
      either <- fn value ;;
      if Either.isError either
      then (e <- Either.getError either ;; Normal (Either.Error e))
      else (v <- Either.getValue either ;;
            traverse_loop rest fn (results ++ [v]))
  end.

Definition traverse (values : list JsValue)
  (fn : JsValue -> Completion Either) : Completion Either :=
  traverse_loop values fn [].

Definition sequenceAll (eithers : list Either) : Completion Either :=
  parts <- partition eithers ;;
  let (oks, errors) := parts in
  Normal (if Nat.ltb 0 (List.length errors)
          then Either.Error (JArray errors)
          else Either.Ok (JArray oks)).

(** index.ts exports the same function under the name [collectAllErrors],
    keeping [sequenceAll] as the legacy name. *)
Definition collectAllErrors : list Either -> Completion Either := sequenceAll.

End EitherTypes.

(** ** Auxiliary definitions for the statements *)

(** The error of a wrong-state access (the specification calls it
    InvalidStateAccess): the source throws a plain [Error] with the given
    message. *)
Definition InvalidStateAccess (message : string) : JsValue :=
  JErrorObject "Error" message.

(** [values.map(fn)] for a callback that may throw: the elements are visited
    from left to right and the first throw ends the call. *)
Fixpoint Array_map {A B : Type} (fn : A -> Completion B) (values : list A)
  : Completion (list B) :=
  match values with
  | [] => Normal []
  | x :: rest =>
      y <- fn x ;;
      ys <- Array_map fn rest ;;
      Normal (y :: ys)
  end.

(** Mapping [fn] over the list and then calling [sequence], as the
    specification words [traverse]: [sequence(values.map(fn))]. *)
Definition map_then_sequence (values : list JsValue)
  (fn : JsValue -> Completion Either) : Completion Either :=
  eithers <- Array_map fn values ;;
  EitherTypes.sequence eithers.

(** Callbacks and inputs used in the examples. *)
Definition always_throws : JsValue -> Completion bool :=
  fun _ => Throw (JString "predicate called").

Definition greater_than_3 : JsValue -> Completion bool :=
  fun v => match v with
           | JNumber n => Normal (3 <? n)%Z
           | _ => Normal false
           end.

Definition double : JsValue -> Completion JsValue :=
  fun v => match v with
           | JNumber n => Normal (JNumber (n * 2))
           | _ => Throw (new_ErrorClass "TypeError" (Some "not a number"%string))
           end.

(** A callback that gives a failure on [1] and throws on everything else. *)
Definition fails_then_throws : JsValue -> Completion Either :=
  fun v => match v with
           | JNumber 1 => Normal (Either.Error (JString "e"))
           | _ => Throw (JString "boom")
           end.

(** A callback that doubles a number and throws on everything else. *)
Definition Ok_double : JsValue -> Completion Either :=
  fun v => x <- double v ;; Normal (Either.Ok x).

(** [const circularError = { message: 'Circular' }; circularError.self =
    circularError] *)
Definition circularError : JsValue :=
  JObject [("message"%string, JString "Circular"); ("self"%string, JBackRef 0)].

(** [class StandardError extends Error] *)
Definition StandardError : Constructor := new_ErrorClass "StandardError".

(** An instance as the two factories make it: the field of the other state
    is [undefined]. The constructor is private, so these are the instances a
    program can hold. *)
Definition factory_made (this : Either) : bool :=
  Host.is_undefined (if _isOk this then error this else value this).

(** * Properties *)

(** ** The two states of an instance *)

Lemma isError_negb_isOk (this : Either) :
  Either.isError this = negb (Either.isOk this).
Proof. reflexivity. Qed.

Lemma isOk_true_isError (this : Either) :
  Either.isOk this = true -> Either.isError this = false.
Proof. unfold Either.isError, Either.isOk. now intros ->. Qed.

Lemma isError_true_isOk (this : Either) :
  Either.isError this = true -> Either.isOk this = false.
Proof. unfold Either.isError, Either.isOk. now destruct (_isOk this). Qed.

(** Both factories record the state in the flag, whatever the payload. *)
Lemma Ok_state (v : JsValue) :
  Either.isOk (Either.Ok v) = true /\ Either.isError (Either.Ok v) = false.
Proof. split; reflexivity. Qed.

Lemma Error_state (e : JsValue) :
  Either.isOk (Either.Error e) = false /\ Either.isError (Either.Error e) = true.
Proof. split; reflexivity. Qed.

(** The state queries never agree. *)
Lemma state_exclusive (this : Either) :
  Either.isOk this <> Either.isError this.
Proof. unfold Either.isOk, Either.isError. now destruct (_isOk this). Qed.

Create HintDb either.

#[local] Hint Unfold Either.isOk Either.isError Either.getValue Either.getError
  : either.

Ltac by_state this :=
  autounfold with either in *; destruct this as [? ? [|]]; simpl in *;
  try discriminate; try reflexivity.

(** C1, as stated, fails: the instance made by [Ok(undefined)] answers [true]
    to [isOk()], so it is not the case that both queries are false. *)
Lemma Ok_undefined_not_stateless :
  ~ (Either.isOk (Either.Ok JUndefined) = false
     /\ Either.isError (Either.Ok JUndefined) = false).
Proof. intros [H _]. discriminate H. Qed.

(** C1, amended: when the success factory [Ok] is called with [undefined],
    the resulting instance is in the success state like any other:
    [Ok(undefined).isOk()] returns [true] and [Ok(undefined).isError()]
    returns [false]. *)
Theorem Ok_undefined_state :
  Either.isOk (Either.Ok JUndefined) = true
  /\ Either.isError (Either.Ok JUndefined) = false.
Proof. exact (Ok_state JUndefined). Qed.

(** ** filter *)

(** C2: on a failure instance [filter] returns a failure wrapping
    [errorIfFails], whatever the predicate is (also one that throws on every
    argument: it is not called) and whatever failure was stored; on a success
    instance whose value passes the predicate it returns the instance itself;
    on a success instance whose value does not pass, a failure wrapping
    [errorIfFails]. *)
Theorem filter_spec (this : Either) (p : JsValue -> Completion bool)
  (errorIfFails : JsValue) :
  (Either.isError this = true ->
   Either.filter this p errorIfFails = Normal (Either.Error errorIfFails))
  /\ (Either.isOk this = true -> p (value this) = Normal true ->
      Either.filter this p errorIfFails = Normal this)
  /\ (Either.isOk this = true -> p (value this) = Normal false ->
      Either.filter this p errorIfFails = Normal (Either.Error errorIfFails)).
Proof.
  unfold Either.filter. repeat split.
  - intros H. now rewrite (isError_true_isOk _ H).
  - intros -> ->. reflexivity.
  - intros -> ->. reflexivity.
Qed.

Lemma filter_spec_witness :
  Either.filter (Either.Error (JString "original")) always_throws
    (JString "Too small")
  = Normal (Either.Error (JString "Too small"))
  /\ Either.filter (Either.Ok (JNumber 5)) greater_than_3 (JString "Too small")
     = Normal (Either.Ok (JNumber 5))
  /\ Either.filter (Either.Ok (JNumber 2)) greater_than_3 (JString "Too small")
     = Normal (Either.Error (JString "Too small")).
Proof.
  split; [| split].
  - apply (proj1 (filter_spec (Either.Error (JString "original")) _ _)).
    reflexivity.
  - apply (proj1 (proj2 (filter_spec (Either.Ok (JNumber 5)) greater_than_3 _)));
      reflexivity.
  - apply (proj2 (proj2 (filter_spec (Either.Ok (JNumber 2)) greater_than_3 _)));
      reflexivity.
Defined.

(** ** zip *)

(** C5: [a.zip(b)] is a success wrapping the pair of both values when both
    are successes; a failure wrapping the payload of [a] whenever [a] is a
    failure (whatever [b] is); and a failure wrapping the payload of [b] only
    when [a] is a success and [b] a failure. *)
Theorem zip_spec (a b : Either) :
  (Either.isOk a = true -> Either.isOk b = true ->
   Either.zip a b = Normal (Either.Ok (JArray [value a; value b])))
  /\ (Either.isError a = true ->
      Either.zip a b = Normal (Either.Error (error a)))
  /\ (Either.isOk a = true -> Either.isError b = true ->
      Either.zip a b = Normal (Either.Error (error b))).
Proof.
  unfold Either.zip. repeat split.
  - intros Ha Hb. by_state a. by_state b.
  - intros Ha. now rewrite Ha.
  - intros Ha Hb. by_state a. by_state b.
Qed.

Lemma zip_spec_witness :
  Either.zip (Either.Ok (JNumber 1)) (Either.Ok (JNumber 2))
  = Normal (Either.Ok (JArray [JNumber 1; JNumber 2]))
  /\ Either.zip (Either.Error (JString "e1")) (Either.Error (JString "e2"))
     = Normal (Either.Error (JString "e1"))
  /\ Either.zip (Either.Ok (JNumber 1)) (Either.Error (JString "e2"))
     = Normal (Either.Error (JString "e2")).
Proof.
  split; [| split].
  - apply (proj1 (zip_spec (Either.Ok (JNumber 1)) (Either.Ok (JNumber 2))));
      reflexivity.
  - apply (proj1 (proj2 (zip_spec (Either.Error (JString "e1"))
                           (Either.Error (JString "e2"))))).
    reflexivity.
  - apply (proj2 (proj2 (zip_spec (Either.Ok (JNumber 1))
                           (Either.Error (JString "e2")))));
      reflexivity.
Defined.

(** ** getValue and getError *)

Section Extraction.

Local Open Scope string_scope.

Lemma getValue_Ok (v : JsValue) : Either.getValue (Either.Ok v) = Normal v.
Proof. reflexivity. Qed.

Lemma getError_Error (e : JsValue) :
  Either.getError (Either.Error e) = Normal e.
Proof. reflexivity. Qed.

(** C9: [getValue] returns the success payload of a success instance, and
    throws exactly when the instance is a failure, the thrown error having
    the message "Cannot access value in a non-Ok instance"; [getError]
    returns the failure payload of a failure instance, and throws exactly
    when the instance is a success, with the message "Cannot access error
    in a non-Error instance". *)
Theorem getValue_getError_spec (this : Either) :
  (Either.isOk this = true -> Either.getValue this = Normal (value this))
  /\ (Either.getValue this
      = Throw (InvalidStateAccess "Cannot access value in a non-Ok instance")
      <-> Either.isError this = true)
  /\ (forall t, Either.getValue this = Throw t ->
                t = InvalidStateAccess "Cannot access value in a non-Ok instance")
  /\ (Either.isError this = true -> Either.getError this = Normal (error this))
  /\ (Either.getError this
      = Throw (InvalidStateAccess "Cannot access error in a non-Error instance")
      <-> Either.isOk this = true)
  /\ (forall t, Either.getError this = Throw t ->
                t = InvalidStateAccess "Cannot access error in a non-Error instance").
Proof.
  unfold InvalidStateAccess.
  repeat split; by_state this; intros; try congruence.
  all: match goal with H : Throw _ = Throw _ |- _ => now inversion H end.
Qed.

Lemma getValue_getError_spec_witness :
  Either.getValue (Either.Ok (JString "success")) = Normal (JString "success")
  /\ Either.getValue (Either.Error (JString "failed"))
     = Throw (InvalidStateAccess "Cannot access value in a non-Ok instance")
  /\ Either.getError (Either.Error (JString "failed")) = Normal (JString "failed")
  /\ Either.getError (Either.Ok (JString "success"))
     = Throw (InvalidStateAccess "Cannot access error in a non-Error instance").
Proof.
  pose proof (getValue_getError_spec (Either.Ok (JString "success")))
    as (Hv & _ & _ & _ & He & _).
  pose proof (getValue_getError_spec (Either.Error (JString "failed")))
    as (_ & Hv' & _ & He' & _ & _).
  split; [| split; [| split]].
  - apply Hv. reflexivity.
  - apply Hv'. reflexivity.
  - apply He'. reflexivity.
  - apply He. reflexivity.
Defined.

End Extraction.

(** ** swap *)

Lemma swap_Ok (v : JsValue) : Either.swap (Either.Ok v) = Either.Error v.
Proof. reflexivity. Qed.

Lemma swap_Error (e : JsValue) : Either.swap (Either.Error e) = Either.Ok e.
Proof. reflexivity. Qed.

Lemma swap_flips_state (this : Either) :
  Either.isOk (Either.swap this) = Either.isError this.
Proof. by_state this. Qed.

(** C10: [Ok(v).swap()] is a failure instance whose failure payload is [v],
    [Error(e).swap()] is a success instance whose success payload is [e], and
    swapping twice gives an instance with the state of the original and the
    same payload: both extractors answer on it as on the original, and an
    instance made by a factory comes back as it was. *)
Theorem swap_spec :
  (forall v, Either.isError (Either.swap (Either.Ok v)) = true
             /\ Either.getError (Either.swap (Either.Ok v)) = Normal v)
  /\ (forall e, Either.isOk (Either.swap (Either.Error e)) = true
                /\ Either.getValue (Either.swap (Either.Error e)) = Normal e)
  /\ (forall this,
         Either.isOk (Either.swap (Either.swap this)) = Either.isOk this
         /\ Either.getValue (Either.swap (Either.swap this)) = Either.getValue this
         /\ Either.getError (Either.swap (Either.swap this)) = Either.getError this)
  /\ (forall v, Either.swap (Either.swap (Either.Ok v)) = Either.Ok v)
  /\ (forall e, Either.swap (Either.swap (Either.Error e)) = Either.Error e).
Proof.
  repeat split; try by_state this.
Qed.

(** ** sequence, partition, traverse, sequenceAll *)

Section Collections.

Import EitherTypes.

Lemma sequence_loop_all_ok (eithers : list Either) :
  forall results,
    forallb Either.isOk eithers = true ->
    sequence_loop eithers results
    = Normal (Either.Ok (JArray (results ++ List.map value eithers))).
Proof.
  induction eithers as [| either rest IH]; intros results Hall; simpl.
  - now rewrite app_nil_r.
  - simpl in Hall. apply andb_prop in Hall as [Hok Hrest].
    rewrite (isOk_true_isError _ Hok).
    unfold Either.getValue. rewrite Hok. simpl.
    rewrite (IH _ Hrest), <- app_assoc. reflexivity.
Qed.

Lemma sequence_loop_first_error (oks : list Either) :
  forall failed rest results,
    forallb Either.isOk oks = true ->
    Either.isError failed = true ->
    sequence_loop (oks ++ failed :: rest) results
    = Normal (Either.Error (error failed)).
Proof.
  induction oks as [| either oks IH]; intros failed rest results Hall Hfail; simpl.
  - rewrite Hfail. unfold Either.getError. now rewrite Hfail.
  - simpl in Hall. apply andb_prop in Hall as [Hok Hoks].
    rewrite (isOk_true_isError _ Hok).
    unfold Either.getValue. rewrite Hok. simpl.
    now apply IH.
Qed.

(** Every list of instances is a run of successes followed either by
    nothing or by a first failure. *)
Lemma first_error_split (eithers : list Either) :
  forallb Either.isOk eithers = true
  \/ exists oks failed rest,
      eithers = oks ++ failed :: rest
      /\ forallb Either.isOk oks = true
      /\ Either.isError failed = true.
Proof.
  induction eithers as [| either rest IH]; [now left |].
  destruct (Either.isOk either) eqn:Hok.
  - destruct IH as [Hall | (oks & failed & rest' & -> & Hoks & Hfail)].
    + left. simpl. now rewrite Hok.
    + right. exists (either :: oks), failed, rest'. simpl.
      rewrite Hok. now repeat split.
  - right. exists [], either, rest. repeat split.
    unfold Either.isError, Either.isOk in *. now rewrite Hok.
Qed.

(** C3: [sequence] returns a failure wrapping the payload of the first
    failure of the list, whatever follows it; when every element is a
    success it returns a success wrapping the values in the order of the
    list; on the empty list, a success wrapping the empty array. *)
Theorem sequence_spec (eithers : list Either) :
  (forall oks failed rest,
      eithers = oks ++ failed :: rest ->
      forallb Either.isOk oks = true ->
      Either.isError failed = true ->
      sequence eithers = Normal (Either.Error (error failed)))
  /\ (forallb Either.isOk eithers = true ->
      sequence eithers = Normal (Either.Ok (JArray (List.map value eithers))))
  /\ sequence [] = Normal (Either.Ok (JArray [])).
Proof.
  unfold sequence. split; [| split].
  - intros oks failed rest -> Hoks Hfail.
    now apply sequence_loop_first_error.
  - intros Hall. now rewrite sequence_loop_all_ok.
  - reflexivity.
Qed.

Lemma sequence_spec_witness :
  sequence [Either.Ok (JNumber 1); Either.Error (JString "e"); Either.Ok (JNumber 3)]
  = Normal (Either.Error (JString "e"))
  /\ sequence [Either.Ok (JNumber 1); Either.Ok (JNumber 2); Either.Ok (JNumber 3)]
     = Normal (Either.Ok (JArray [JNumber 1; JNumber 2; JNumber 3])).
Proof.
  split.
  - apply (proj1 (sequence_spec _) [Either.Ok (JNumber 1)]
             (Either.Error (JString "e")) [Either.Ok (JNumber 3)]);
      reflexivity.
  - apply (proj1 (proj2 (sequence_spec
             [Either.Ok (JNumber 1); Either.Ok (JNumber 2); Either.Ok (JNumber 3)]))).
    reflexivity.
Defined.

(** [sequence] always returns: the guarded extractions never throw. *)
Lemma sequence_total (eithers : list Either) :
  exists result, sequence eithers = Normal result.
Proof.
  unfold sequence.
  destruct (first_error_split eithers)
    as [Hall | (oks & failed & rest & -> & Hoks & Hfail)].
  - eexists. now apply sequence_loop_all_ok.
  - eexists. now apply sequence_loop_first_error.
Qed.

Lemma partition_loop_spec (eithers : list Either) :
  forall oks errors,
    partition_loop eithers oks errors
    = Normal (oks ++ List.map value (List.filter Either.isOk eithers),
              errors ++ List.map error (List.filter Either.isError eithers)).
Proof.
  induction eithers as [| either rest IH]; intros oks errors; simpl.
  - now rewrite !app_nil_r.
  - unfold Either.getValue, Either.getError.
    destruct (Either.isOk either) eqn:Hok.
    + rewrite (isOk_true_isError _ Hok). simpl.
      rewrite IH, <- app_assoc. reflexivity.
    + assert (Either.isError either = true) as ->
          by (unfold Either.isError, Either.isOk in *; now rewrite Hok).
      simpl. rewrite IH, <- app_assoc. reflexivity.
Qed.

(** [partition] gives the success payloads and the failure payloads, each
    in the order of the list. *)
Lemma partition_spec (eithers : list Either) :
  partition eithers
  = Normal (List.map value (List.filter Either.isOk eithers),
            List.map error (List.filter Either.isError eithers)).
Proof. unfold partition. now rewrite partition_loop_spec. Qed.

Lemma filter_isError_nil (eithers : list Either) :
  List.filter Either.isError eithers = [] <->
  forallb Either.isOk eithers = true.
Proof.
  induction eithers as [| either rest IH]; simpl; [tauto |].
  unfold Either.isError at 1, Either.isOk at 1.
  destruct (_isOk either); simpl; [exact IH |].
  split; discriminate.
Qed.

Lemma filter_isOk_all (eithers : list Either) :
  forallb Either.isOk eithers = true ->
  List.filter Either.isOk eithers = eithers.
Proof.
  induction eithers as [| either rest IH]; simpl; [reflexivity |].
  intros H. apply andb_prop in H as [-> Hrest]. now rewrite IH.
Qed.

(** C4: [sequenceAll] (exported also as [collectAllErrors]) partitions the
    list; when the list holds a failure it returns a failure wrapping the
    payloads of all the failures of the list, in order; when it holds none
    it returns a success wrapping the payloads of all its elements, in
    order. *)
Theorem sequenceAll_spec (eithers : list Either) :
  partition eithers
  = Normal (List.map value (List.filter Either.isOk eithers),
            List.map error (List.filter Either.isError eithers))
  /\ (List.filter Either.isError eithers <> [] ->
      sequenceAll eithers
      = Normal (Either.Error
                  (JArray (List.map error (List.filter Either.isError eithers)))))
  /\ (List.filter Either.isError eithers = [] ->
      sequenceAll eithers
      = Normal (Either.Ok (JArray (List.map value eithers))))
  /\ collectAllErrors eithers = sequenceAll eithers.
Proof.
  split; [apply partition_spec |].
  unfold collectAllErrors, sequenceAll. rewrite partition_spec. simpl.
  split; [| split; [| reflexivity]].
  - intros Hne. rewrite length_map.
    destruct (List.filter Either.isError eithers); [congruence | reflexivity].
  - intros Hnil. rewrite Hnil. simpl.
    apply filter_isError_nil in Hnil. now rewrite filter_isOk_all.
Qed.

Lemma sequenceAll_spec_witness :
  sequenceAll [Either.Ok (JNumber 1); Either.Error (JString "a");
               Either.Error (JString "b")]
  = Normal (Either.Error (JArray [JString "a"; JString "b"]))
  /\ sequenceAll [Either.Ok (JNumber 1); Either.Ok (JNumber 2)]
     = Normal (Either.Ok (JArray [JNumber 1; JNumber 2])).
Proof.
  split.
  - apply (proj1 (proj2 (sequenceAll_spec
             [Either.Ok (JNumber 1); Either.Error (JString "a");
              Either.Error (JString "b")]))).
    discriminate.
  - apply (proj1 (proj2 (proj2 (sequenceAll_spec
             [Either.Ok (JNumber 1); Either.Ok (JNumber 2)])))).
    reflexivity.
Defined.

(** On a list with two failures [sequence] keeps the first one only. *)
Example sequence_keeps_first_only :
  sequence [Either.Ok (JNumber 1); Either.Error (JString "a");
            Either.Error (JString "b")]
  = Normal (Either.Error (JString "a")).
Proof. reflexivity. Qed.

Lemma traverse_loop_mapped (values : list JsValue)
  (fn : JsValue -> Completion Either) :
  forall eithers results,
    Array_map fn values = Normal eithers ->
    traverse_loop values fn results = sequence_loop eithers results.
Proof.
  induction values as [| v rest IH]; intros eithers results Hmap; simpl in *.
  - injection Hmap as <-. reflexivity.
  - destruct (fn v) as [either | t]; simpl in *; [| discriminate].
    destruct (Array_map fn rest) as [ys | t]; simpl in *; [| discriminate].
    injection Hmap as <-. simpl.
    destruct (Either.isError either); [reflexivity |].
    destruct (Either.getValue either); simpl; [| reflexivity].
    now apply IH.
Qed.

Lemma Array_map_total {A B : Type} (f : A -> B) (values : list A) :
  Array_map (fun v => Normal (f v)) values = Normal (List.map f values).
Proof.
  induction values as [| v rest IH]; simpl; [reflexivity |].
  now rewrite IH.
Qed.

(** For a function that gives an instance on every value, [traverse] gives
    what [sequence] gives on the list mapped by it. *)
Lemma traverse_map_sequence (values : list JsValue) (fn : JsValue -> Either) :
  traverse values (fun v => Normal (fn v)) = sequence (List.map fn values).
Proof.
  unfold traverse, sequence.
  apply traverse_loop_mapped, Array_map_total.
Qed.

(** The same holds for a callback that may throw, as long as mapping it
    over the whole list returns. *)
Lemma traverse_Array_map_sequence (values : list JsValue)
  (fn : JsValue -> Completion Either) (eithers : list Either) :
  Array_map fn values = Normal eithers ->
  traverse values fn = sequence eithers.
Proof. apply traverse_loop_mapped. Qed.

(** Mapping returns when the callback returns on every element. *)
Lemma Array_map_returns {A B : Type} (fn : A -> Completion B) (values : list A) :
  (forall v, In v values -> exists r, fn v = Normal r) ->
  exists results, Array_map fn values = Normal results.
Proof.
  induction values as [| v rest IH]; intros Hfn; simpl; [now eexists |].
  destruct (Hfn v (or_introl eq_refl)) as [r ->]. simpl.
  destruct IH as [results ->]; [intros w Hw; apply Hfn; now right |].
  simpl. now eexists.
Qed.

(** C8, as stated, fails: on the list [1, 2] and a callback that gives a
    failure on [1] and throws on [2], [traverse] returns the failure, without
    calling the callback on [2], while mapping the callback over the list and
    then calling [sequence] throws. *)
Lemma traverse_differs_from_map_then_sequence :
  traverse [JNumber 1; JNumber 2] fails_then_throws
  = Normal (Either.Error (JString "e"))
  /\ map_then_sequence [JNumber 1; JNumber 2] fails_then_throws
     = Throw (JString "boom")
  /\ traverse [JNumber 1; JNumber 2] fails_then_throws
     <> map_then_sequence [JNumber 1; JNumber 2] fails_then_throws.
Proof.
  split; [reflexivity | split; [reflexivity | discriminate]].
Qed.

(** C8, amended: for every list and every function [fn] that returns an
    instance on every element of the list (it throws on none of them),
    [traverse(list, fn)] gives what mapping [fn] over the list and then
    calling [sequence] gives: the same first failure, or the same success
    with the values in order. *)
Theorem traverse_map_then_sequence (values : list JsValue)
  (fn : JsValue -> Completion Either) :
  (forall v, In v values -> exists either, fn v = Normal either) ->
  traverse values fn = map_then_sequence values fn.
Proof.
  intros Hfn. unfold map_then_sequence.
  destruct (Array_map_returns fn values Hfn) as [eithers Hmap].
  rewrite Hmap. simpl. unfold traverse, sequence.
  now apply traverse_loop_mapped.
Qed.

Lemma traverse_map_then_sequence_witness :
  traverse [JNumber 1; JNumber 2; JNumber 3] Ok_double
  = map_then_sequence [JNumber 1; JNumber 2; JNumber 3] Ok_double.
Proof.
  apply (traverse_map_then_sequence [JNumber 1; JNumber 2; JNumber 3] Ok_double).
  intros v [<- | [<- | [<- | []]]]; eexists; reflexivity.
Defined.

End Collections.

(** ** Message normalization, safeSync and safeAsync *)

Section SafeWrapping.

Import Host EitherTypes.
Local Open Scope string_scope.

(** The serializer throws nothing but the error of a cyclic structure. *)
Lemma SerializeJSONProperty_throws (gap : string) :
  forall v indent x,
    SerializeJSONProperty gap indent v = Throw x -> x = circular_structure.
Proof.
  fix IH 1. intros v indent x.
  destruct v as [| | [|] | n | s | items | props | cls m | val err ok | d];
    simpl; try discriminate.
  - (* array *)
    match goal with
    | |- bind (?elements items) _ = _ -> _ =>
        assert (Hel : forall y, elements items = Throw y -> y = circular_structure)
    end.
    { clear x. induction items as [| e l IHl]; intros y; simpl.
      - discriminate.
      - destruct (SerializeJSONProperty gap (indent ++ gap) e) eqn:He; simpl.
        + match goal with
          | |- bind ?c _ = _ -> _ => destruct c eqn:Hc; simpl
          end; [discriminate |].
          intros [= <-]. now apply IHl.
        + intros [= <-]. exact (IH _ _ _ He). }
    match goal with
    | |- bind ?c _ = _ -> _ => destruct c eqn:Hc; simpl
    end; [discriminate |].
    intros [= <-]. exact (Hel _ eq_refl).
  - (* object *)
    match goal with
    | |- bind (?members props) _ = _ -> _ =>
        assert (Hel : forall y, members props = Throw y -> y = circular_structure)
    end.
    { clear x. induction props as [| [key e] l IHl]; intros y; simpl.
      - discriminate.
      - destruct (SerializeJSONProperty gap (indent ++ gap) e) eqn:He; simpl.
        + match goal with
          | |- bind ?c _ = _ -> _ => destruct c eqn:Hc; simpl
          end; [discriminate |].
          intros [= <-]. now apply IHl.
        + intros [= <-]. exact (IH _ _ _ He). }
    match goal with
    | |- bind ?c _ = _ -> _ => destruct c eqn:Hc; simpl
    end; [discriminate |].
    intros [= <-]. exact (Hel _ eq_refl).
  - (* instance of Either *)
    destruct (SerializeJSONProperty gap (indent ++ gap) val) eqn:Hv; simpl.
    + destruct (SerializeJSONProperty gap (indent ++ gap) err) eqn:He; simpl;
        [discriminate |].
      intros [= <-]. exact (IH _ _ _ He).
    + intros [= <-]. exact (IH _ _ _ Hv).
  - intros [= <-]. reflexivity.
Qed.

(** The four cases of the normalization of a caught value. *)
Lemma extractErrorMessage_Error (cls m : string) :
  extractErrorMessage (JErrorObject cls m) = Normal (Some m).
Proof. reflexivity. Qed.

Lemma extractErrorMessage_string (s : string) :
  extractErrorMessage (JString s) = Normal (Some s).
Proof. reflexivity. Qed.

Lemma extractErrorMessage_object (t : JsValue) :
  typeof t = "object" -> t <> JNull -> instanceof_Error t = None ->
  extractErrorMessage t = safeStringify t.
Proof.
  intros Hty Hnull Herr. unfold extractErrorMessage. rewrite Herr, Hty.
  destruct t; simpl in *; try reflexivity; congruence.
Qed.

Lemma extractErrorMessage_other (t : JsValue) :
  t = JNull \/ (typeof t <> "object" /\ typeof t <> "string") ->
  extractErrorMessage t = Normal (Some (ToString t)).
Proof.
  intros [-> | [Hobj Hstr]]; [reflexivity |].
  destruct t; simpl in *; try reflexivity; congruence.
Qed.

(** An object always has a JSON text, unless its serialization throws. *)
Lemma safeStringify_object_text (t : JsValue) :
  typeof t = "object" -> t <> JNull ->
  safeStringify t <> Normal None.
Proof.
  unfold safeStringify, JSON_stringify. intros Hty Hnull.
  destruct t; simpl in *; try congruence;
    repeat match goal with
    | |- bind ?c _ <> _ => destruct c; simpl
    end; congruence.
Qed.

(** The normalization throws only the error of a cyclic structure, and
    only on an object that is neither [null] nor an error. *)
Lemma extractErrorMessage_throws (t x : JsValue) :
  extractErrorMessage t = Throw x ->
  x = circular_structure
  /\ typeof t = "object" /\ t <> JNull /\ instanceof_Error t = None
  /\ safeStringify t = Throw x.
Proof.
  intros H.
  assert (Hx : x = circular_structure).
  { destruct t; simpl in H; try discriminate;
      unfold extractErrorMessage in H; simpl in H;
      try discriminate;
      exact (SerializeJSONProperty_throws _ _ _ _ H). }
  destruct t; simpl in *; try discriminate; repeat split; try congruence;
    exact H.
Qed.

Lemma safeSync_returns (fn : unit -> Completion JsValue)
  (ErrClass : Constructor) (v : JsValue) :
  fn tt = Normal v -> safeSync fn ErrClass = Normal (Either.Ok v).
Proof. unfold safeSync. now intros ->. Qed.

Lemma safeSync_caught (fn : unit -> Completion JsValue)
  (ErrClass : Constructor) (t : JsValue) :
  fn tt = Throw t ->
  safeSync fn ErrClass
  = (msg <- extractErrorMessage t ;; Normal (Either.Error (ErrClass msg))).
Proof. unfold safeSync. now intros ->. Qed.

(** C6, as stated, fails: when the operation throws a cyclic object,
    [safeSync] does not yield a failure instance, it throws the error of
    the serialization. *)
Lemma safeSync_cyclic_throws :
  safeSync (fun _ => Throw circularError) new_Error = Throw circular_structure
  /\ ~ (exists either,
          safeSync (fun _ => Throw circularError) new_Error = Normal either).
Proof.
  split; [reflexivity |].
  intros [either H]. discriminate H.
Qed.

(** C6, amended: [safeSync] runs the operation; when it returns, the result
    is a success wrapping the returned value; when it throws a value whose
    message can be computed, the result is a failure wrapping the error
    built by the error constructor from that message: the [message] of an
    error object, a string itself, the indented serialization of any other
    object that is not [null], and the default string conversion of the
    remaining values. When the serialization of a thrown object fails (a
    cyclic structure), the error of the serialization reaches the caller.
    The value thrown by the operation itself never does. *)
Theorem safeSync_spec (fn : unit -> Completion JsValue)
  (ErrClass : Constructor) :
  (forall v, fn tt = Normal v ->
     safeSync fn ErrClass = Normal (Either.Ok v))
  /\ (forall cls m, fn tt = Throw (JErrorObject cls m) ->
       safeSync fn ErrClass = Normal (Either.Error (ErrClass (Some m))))
  /\ (forall s, fn tt = Throw (JString s) ->
       safeSync fn ErrClass = Normal (Either.Error (ErrClass (Some s))))
  /\ (forall t, fn tt = Throw t ->
       typeof t = "object" -> t <> JNull -> instanceof_Error t = None ->
       (forall text, JSON_stringify t 2 = Normal text ->
          text <> None
          /\ safeSync fn ErrClass = Normal (Either.Error (ErrClass text)))
       /\ (forall x, JSON_stringify t 2 = Throw x ->
             safeSync fn ErrClass = Throw x))
  /\ (forall t, fn tt = Throw t ->
       t = JNull \/ (typeof t <> "object" /\ typeof t <> "string") ->
       safeSync fn ErrClass
       = Normal (Either.Error (ErrClass (Some (ToString t)))))
  /\ (forall x, safeSync fn ErrClass = Throw x ->
       x = circular_structure
       /\ exists t, fn tt = Throw t /\ t <> x /\ JSON_stringify t 2 = Throw x).
Proof.
  split; [apply safeSync_returns |].
  split; [intros cls m H; now rewrite (safeSync_caught _ _ _ H) |].
  split; [intros s H; now rewrite (safeSync_caught _ _ _ H) |].
  split; [| split].
  - intros t H Hty Hnull Herr.
    rewrite (safeSync_caught _ _ _ H),
      (extractErrorMessage_object _ Hty Hnull Herr).
    unfold safeStringify. split.
    + intros text Htext. split.
      * intros ->. now apply (safeStringify_object_text t Hty Hnull).
      * now rewrite Htext.
    + intros x Hx. now rewrite Hx.
  - intros t H Hother.
    now rewrite (safeSync_caught _ _ _ H), (extractErrorMessage_other _ Hother).
  - intros x Hx. destruct (fn tt) as [v | t] eqn:Hfn.
    + now rewrite (safeSync_returns _ _ _ Hfn) in Hx.
    + rewrite (safeSync_caught _ _ _ Hfn) in Hx.
      destruct (extractErrorMessage t) as [msg | y] eqn:Hmsg; simpl in Hx;
        [discriminate |].
      injection Hx as ->.
      destruct (extractErrorMessage_throws _ _ Hmsg)
        as (-> & Hty & Hnull & Herr & Hstr).
      split; [reflexivity |]. exists t. repeat split; [| exact Hstr].
      intros ->. discriminate Herr.
Qed.

Lemma safeSync_spec_witness :
  safeSync (fun _ => Normal (JNumber 42)) new_Error
  = Normal (Either.Ok (JNumber 42))
  /\ safeSync (fun _ => Throw (JString "boom")) StandardError
     = Normal (Either.Error (JErrorObject "StandardError" "boom"))
  /\ safeSync (fun _ => Throw (JArray [JNumber 1])) new_Error
     = Normal (Either.Error
                 (JErrorObject "Error" ("[" ++ newline ++ "  1" ++ newline ++ "]")))
  /\ safeSync (fun _ => Throw circularError) new_Error
     = Throw circular_structure
  /\ safeSync (fun _ => Throw (JBool false)) new_Error
     = Normal (Either.Error (JErrorObject "Error" "false")).
Proof.
  split; [| split; [| split; [| split]]].
  - apply (proj1 (safeSync_spec (fun _ => Normal (JNumber 42)) new_Error)).
    reflexivity.
  - apply (proj1 (proj2 (proj2
             (safeSync_spec (fun _ => Throw (JString "boom")) StandardError)))).
    reflexivity.
  - refine (proj2 (proj1 (proj1 (proj2 (proj2 (proj2
             (safeSync_spec (fun _ => Throw (JArray [JNumber 1])) new_Error))))
             (JArray [JNumber 1]) eq_refl eq_refl _ eq_refl) _ eq_refl)).
    discriminate.
  - refine (proj2 (proj1 (proj2 (proj2 (proj2
             (safeSync_spec (fun _ => Throw circularError) new_Error))))
             circularError eq_refl eq_refl _ eq_refl) _ eq_refl).
    discriminate.
  - apply (proj1 (proj2 (proj2 (proj2 (proj2
             (safeSync_spec (fun _ => Throw (JBool false)) new_Error)))))
             (JBool false)).
    + reflexivity.
    + right. split; discriminate.
Defined.

(** The object of the test suite, [{ code: 500, message: 'Server error' }]:
    it has a [message] but is no error object, so it is serialized. *)
Example safeSync_thrown_object :
  safeSync (fun _ => Throw (JObject [("code", JNumber 500);
                                     ("message", JString "Server error")]))
    new_Error
  = Normal (Either.Error
              (JErrorObject "Error"
                 ("{" ++ newline
                  ++ "  " ++ QuoteJSONString "code" ++ ": 500," ++ newline
                  ++ "  " ++ QuoteJSONString "message" ++ ": "
                  ++ QuoteJSONString "Server error" ++ newline
                  ++ "}"))).
Proof. reflexivity. Qed.

(** *** safeAsync *)

Lemma instanceof_Either_to_JsValue (either : Either) :
  instanceof_Either (to_JsValue either) = Some either.
Proof. now destruct either. Qed.

Lemma safeAsync_fulfilled (fn : unit -> Completion (Settled JsValue))
  (ErrClass : Constructor) (v : JsValue) :
  fn tt = Normal (Fulfilled v) ->
  safeAsync fn ErrClass
  = Fulfilled (match instanceof_Either v with
               | Some either => either
               | None => Either.Ok v
               end).
Proof.
  unfold safeAsync. intros ->. simpl. now destruct (instanceof_Either v).
Qed.

(** A rejection and a throw of the operation are handled alike, and like a
    throw in [safeSync]. *)
Lemma safeAsync_caught (fn : unit -> Completion (Settled JsValue))
  (ErrClass : Constructor) (t : JsValue) :
  fn tt = Throw t \/ fn tt = Normal (Rejected t) ->
  safeAsync fn ErrClass = settle (safeSync (fun _ => Throw t) ErrClass).
Proof. unfold safeAsync, safeSync. now intros [-> | ->]. Qed.

(** C7, as stated, fails: when the operation rejects with a cyclic object,
    the promise of [safeAsync] is not fulfilled with an instance, it is
    rejected with the error of the serialization. *)
Lemma safeAsync_cyclic_rejects :
  safeAsync (fun _ => Normal (Rejected circularError)) new_Error
  = Rejected circular_structure
  /\ ~ (exists either,
          safeAsync (fun _ => Normal (Rejected circularError)) new_Error
          = Fulfilled either).
Proof.
  split; [reflexivity |].
  intros [either H]. discriminate H.
Qed.

(** C7, amended: [safeAsync] awaits the operation; when it is fulfilled
    with an instance of [Either] the result is that instance, unchanged,
    and when it is fulfilled with another value the result is a success
    wrapping the value; when the operation throws or is rejected with a
    value whose message can be computed, the result is a failure wrapping
    the error built by the error constructor from that message, computed as
    in [safeSync]. In all these cases the promise is fulfilled with an
    instance. When the message cannot be computed (the serialization of a
    cyclic object fails), the promise is rejected with the error of the
    serialization. *)
Theorem safeAsync_spec (fn : unit -> Completion (Settled JsValue))
  (ErrClass : Constructor) :
  (forall either, fn tt = Normal (Fulfilled (to_JsValue either)) ->
     safeAsync fn ErrClass = Fulfilled either)
  /\ (forall v, fn tt = Normal (Fulfilled v) -> instanceof_Either v = None ->
       safeAsync fn ErrClass = Fulfilled (Either.Ok v))
  /\ (forall t, fn tt = Throw t \/ fn tt = Normal (Rejected t) ->
       safeAsync fn ErrClass = settle (safeSync (fun _ => Throw t) ErrClass)
       /\ (forall msg, extractErrorMessage t = Normal msg ->
             safeAsync fn ErrClass
             = Fulfilled (Either.Error (ErrClass msg)))
       /\ (forall x, extractErrorMessage t = Throw x ->
             x = circular_structure /\ safeAsync fn ErrClass = Rejected x)).
Proof.
  split; [| split].
  - intros either H.
    now rewrite (safeAsync_fulfilled _ _ _ H), instanceof_Either_to_JsValue.
  - intros v H Hinst. now rewrite (safeAsync_fulfilled _ _ _ H), Hinst.
  - intros t H. rewrite (safeAsync_caught _ _ _ H).
    split; [reflexivity |]. unfold safeSync. simpl. split.
    + now intros msg ->.
    + intros x Hx. split.
      * apply (extractErrorMessage_throws _ _ Hx).
      * now rewrite Hx.
Qed.

Lemma safeAsync_spec_witness :
  safeAsync (fun _ => Normal (Fulfilled (to_JsValue (Either.Ok (JNumber 42)))))
    new_Error
  = Fulfilled (Either.Ok (JNumber 42))
  /\ safeAsync (fun _ => Normal (Fulfilled (JNumber 42))) new_Error
     = Fulfilled (Either.Ok (JNumber 42))
  /\ safeAsync (fun _ => Normal (Rejected (JString "Async string error")))
       new_Error
     = Fulfilled (Either.Error (JErrorObject "Error" "Async string error"))
  /\ safeAsync (fun _ => Throw circularError) new_Error
     = Rejected circular_structure.
Proof.
  split; [| split; [| split]].
  - apply (proj1 (safeAsync_spec _ new_Error) (Either.Ok (JNumber 42))).
    reflexivity.
  - apply (proj1 (proj2 (safeAsync_spec
             (fun _ => Normal (Fulfilled (JNumber 42))) new_Error)));
      reflexivity.
  - refine (proj1 (proj2 (proj2 (proj2 (safeAsync_spec
             (fun _ => Normal (Rejected (JString "Async string error")))
             new_Error)) (JString "Async string error") (or_intror eq_refl)))
             (Some "Async string error") eq_refl).
  - refine (proj2 (proj2 (proj2 (proj2 (proj2 (safeAsync_spec
             (fun _ => Throw circularError) new_Error)) circularError
             (or_introl eq_refl))) circular_structure eq_refl)).
Defined.

End SafeWrapping.

(** ** Runs taken from the test suite *)

Section TestSuite.

Import Host EitherTypes.
Local Open Scope string_scope.

Example test_Ok_null :
  Either.isOk (Either.Ok JNull) = true
  /\ Either.getValue (Either.Ok JNull) = Normal JNull.
Proof. split; reflexivity. Qed.

Example test_map_Ok :
  Either.map (Either.Ok (JNumber 5)) double = Normal (Either.Ok (JNumber 10)).
Proof. reflexivity. Qed.

Example test_map_Error :
  Either.map (Either.Error (JString "failed")) double
  = Normal (Either.Error (JString "failed")).
Proof. reflexivity. Qed.

Example test_flatMap_not_called_on_Error :
  Either.flatMap (Either.Error (JString "initial error"))
    (fun _ => Throw (JString "called"))
  = Normal (Either.Error (JString "initial error")).
Proof. reflexivity. Qed.

Example test_recover :
  Either.recover (Either.Error (JString "failed"))
    (fun e => Normal (JString ("Recovered: " ++ ToString e)))
  = Normal (Either.Ok (JString "Recovered: failed")).
Proof. reflexivity. Qed.

Example test_zipWith :
  Either.zipWith (Either.Ok (JNumber 5)) (Either.Ok (JNumber 3))
    (fun a b => match a, b with
                | JNumber x, JNumber y => Normal (JNumber (x + y))
                | _, _ => Normal JUndefined
                end)
  = Normal (Either.Ok (JNumber 8)).
Proof. reflexivity. Qed.

Example test_fromNullable :
  fromNullable (JNumber 0) = Either.Ok (JNumber 0)
  /\ fromNullable (JString EmptyString) = Either.Ok (JString EmptyString)
  /\ fromNullable (JBool false) = Either.Ok (JBool false)
  /\ fromNullable JNull
     = Either.Error (JErrorObject "Error" "Value is null or undefined")
  /\ fromNullable JUndefined
     = Either.Error (JErrorObject "Error" "Value is null or undefined").
Proof. repeat split. Qed.

Example test_partition :
  partition [Either.Ok (JNumber 1); Either.Error (JString "a");
             Either.Ok (JNumber 2); Either.Error (JString "b")]
  = Normal ([JNumber 1; JNumber 2], [JString "a"; JString "b"]).
Proof. reflexivity. Qed.

Example test_traverse_first_error :
  traverse [JNumber 1; JNumber 2; JNumber 3]
    (fun v => match v with
              | JNumber 2 => Normal (Either.Error (JString "Failed at 2"))
              | _ => x <- double v ;; Normal (Either.Ok x)
              end)
  = Normal (Either.Error (JString "Failed at 2")).
Proof. reflexivity. Qed.

Example test_safeSync_custom_error_class :
  safeSync (fun _ => Throw (new_Error (Some "Original error")))
    (new_ErrorClass "CustomError")
  = Normal (Either.Error (JErrorObject "CustomError" "Original error")).
Proof. reflexivity. Qed.

Example test_safeAsync_inner_Error :
  safeAsync
    (fun _ => Normal (Fulfilled (to_JsValue (Either.Error (JString "Inner error")))))
    new_Error
  = Fulfilled (Either.Error (JString "Inner error")).
Proof. reflexivity. Qed.

End TestSuite.

(** * Further properties of the class *)

Ltac returned :=
  repeat match goal with
    | H : Normal _ = Normal _ |- _ => injection H as H; subst
    | H : Throw _ = Normal _ |- _ => discriminate H
    | H : bind ?c _ = Normal _ |- _ =>
        let Hc := fresh "Hc" in destruct c eqn:Hc; simpl in H
    end.

Section Algebra.

Lemma bind_assoc {A B C : Type} (c : Completion A)
  (f : A -> Completion B) (g : B -> Completion C) :
  bind (bind c f) g = bind c (fun a => bind (f a) g).
Proof. now destruct c. Qed.

Lemma bind_Normal_r {A : Type} (c : Completion A) : bind c Normal = c.
Proof. now destruct c. Qed.

Lemma factory_made_iff (this : Either) :
  factory_made this = true <->
  this = Either.Ok (value this) /\ Either.isOk this = true
  \/ this = Either.Error (error this) /\ Either.isError this = true.
Proof.
  unfold factory_made, Either.Ok, Either.Error, Either.isOk, Either.isError.
  destruct this as [val err [|]]; simpl; split.
  - destruct err; try discriminate. now left.
  - intros [[H _] | [_ H]]; [now injection H as -> | discriminate].
  - destruct val; try discriminate. now right.
  - intros [[_ H] | [H _]]; [discriminate | now injection H as ->].
Qed.

Lemma factory_made_Ok (v : JsValue) : factory_made (Either.Ok v) = true.
Proof. reflexivity. Qed.

Lemma factory_made_Error (e : JsValue) : factory_made (Either.Error e) = true.
Proof. reflexivity. Qed.

(** X1: [map] keeps an instance when mapping the identity, and mapping [g]
    and then [f] is mapping their composition, also for callbacks that
    throw. *)
Theorem map_functor_laws :
  (forall v, Either.map (Either.Ok v) Normal = Normal (Either.Ok v))
  /\ (forall e, Either.map (Either.Error e) Normal = Normal (Either.Error e))
  /\ (forall this f g,
         (r <- Either.map this g ;; Either.map r f)
         = Either.map this (fun x => y <- g x ;; f y)).
Proof.
  split; [reflexivity | split; [reflexivity |]].
  intros this f g. unfold Either.map.
  destruct (Either.isOk this); [| reflexivity].
  rewrite !bind_assoc. reflexivity.
Qed.

(** X2: [flatMap] obeys the laws of a monad with [Ok] as unit: [Ok(v)] bound
    to [fn] is [fn(v)], binding an instance to [Ok] gives the instance of the
    same state and payload, and binding is associative; [map] is [flatMap]
    followed by [Ok], and [find] is [flatMap]. *)
Theorem flatMap_monad_laws :
  (forall v fn, Either.flatMap (Either.Ok v) fn = fn v)
  /\ (forall v, Either.flatMap (Either.Ok v) (fun x => Normal (Either.Ok x))
                = Normal (Either.Ok v))
  /\ (forall e, Either.flatMap (Either.Error e) (fun x => Normal (Either.Ok x))
                = Normal (Either.Error e))
  /\ (forall this f g,
         (r <- Either.flatMap this f ;; Either.flatMap r g)
         = Either.flatMap this (fun x => r <- f x ;; Either.flatMap r g))
  /\ (forall this fn,
         Either.map this fn
         = Either.flatMap this (fun x => u <- fn x ;; Normal (Either.Ok u)))
  /\ (forall this fn, Either.find this fn = Either.flatMap this fn).
Proof.
  repeat split.
  intros this f g. unfold Either.flatMap.
  destruct (Either.isOk this); reflexivity.
Qed.

(** X3: mapping the value and mapping the error commute: the two orders give
    the same instance, or throw the same value. *)
Theorem map_mapError_commute (this : Either)
  (f g : JsValue -> Completion JsValue) :
  (r <- Either.map this f ;; Either.mapError r g)
  = (r <- Either.mapError this g ;; Either.map r f).
Proof.
  unfold Either.map, Either.mapError, Either.isError.
  destruct (Either.isOk this) eqn:Hok; unfold Either.isOk in Hok;
    rewrite Hok; simpl.
  - rewrite bind_assoc. reflexivity.
  - rewrite bind_assoc. reflexivity.
Qed.

(** X4: [mapError] is [map] seen through [swap], and [map] is [mapError] seen
    through [swap]. *)
Theorem mapError_swap_map (this : Either) (fn : JsValue -> Completion JsValue) :
  Either.mapError this fn
  = (r <- Either.map (Either.swap this) fn ;; Normal (Either.swap r))
  /\ Either.map this fn
     = (r <- Either.mapError (Either.swap this) fn ;; Normal (Either.swap r)).
Proof.
  unfold Either.map, Either.mapError, Either.swap, Either.isError, Either.isOk.
  destruct (_isOk this); simpl; split; try reflexivity;
    rewrite bind_assoc; reflexivity.
Qed.

(** X5: folding a swapped instance is folding the instance with the two
    handlers exchanged. *)
Theorem fold_swap {R : Type} (this : Either)
  (fnError fnOk : JsValue -> Completion R) :
  Either.fold (Either.swap this) fnError fnOk = Either.fold this fnOk fnError.
Proof.
  unfold Either.fold, Either.swap, Either.isError, Either.isOk.
  destruct (_isOk this); reflexivity.
Qed.

(** X6: folding an instance made by a factory with the two factories as
    handlers gives the instance back. *)
Theorem fold_factories (this : Either) :
  factory_made this = true ->
  Either.fold this (fun e => Normal (Either.Error e))
    (fun v => Normal (Either.Ok v))
  = Normal this.
Proof.
  intros H. apply factory_made_iff in H.
  unfold Either.fold.
  destruct H as [[Heq Hok] | [Heq Herr]].
  - rewrite (isOk_true_isError _ Hok). now rewrite <- Heq.
  - rewrite Herr. now rewrite <- Heq.
Qed.

Lemma fold_factories_witness :
  Either.fold (Either.Error (JString "failed"))
    (fun e => Normal (Either.Error e)) (fun v => Normal (Either.Ok v))
  = Normal (Either.Error (JString "failed")).
Proof. apply (fold_factories (Either.Error (JString "failed"))). reflexivity. Defined.

(** X7: the three total extractions agree with [getValue]: [getOrElse] gives
    what [getValue] returns and the default where it throws, [toOptional] is
    [getOrElse(undefined)], and [toPromise] is fulfilled with what [getValue]
    returns and rejected with what [getError] returns. *)
Theorem total_extractions (this : Either) (defaultValue : JsValue) :
  Either.getOrElse this defaultValue
  = match Either.getValue this with
    | Normal v => v
    | Throw _ => defaultValue
    end
  /\ Either.toOptional this = Either.getOrElse this JUndefined
  /\ Either.toPromise this
     = match Either.getValue this with
       | Normal v => Fulfilled v
       | Throw _ => Rejected (error this)
       end.
Proof.
  unfold Either.getOrElse, Either.toOptional, Either.toPromise,
    Either.getValue, Either.getError, Either.isError, Either.isOk.
  destruct (_isOk this); repeat split.
Qed.

(** X8: [recover] never gives a failure: whenever it returns, the result is
    a success made by [Ok]; on a success it does not call the function, and it
    throws only what the function throws on the stored error. *)
Theorem recover_spec (this : Either) (fn : JsValue -> Completion JsValue) :
  (forall r, Either.recover this fn = Normal r ->
             Either.isOk r = true /\ r = Either.Ok (value r))
  /\ (Either.isOk this = true ->
      Either.recover this fn = Normal (Either.Ok (value this)))
  /\ (forall t, Either.recover this fn = Throw t ->
                Either.isError this = true /\ fn (error this) = Throw t).
Proof.
  unfold Either.recover, Either.isError, Either.isOk.
  destruct (_isOk this); simpl.
  - split; [| split].
    + now intros r [= <-].
    + reflexivity.
    + discriminate.
  - destruct (fn (error this)) as [v | t']; simpl; split; [| split | | split].
    + now intros r [= <-].
    + discriminate.
    + discriminate.
    + discriminate.
    + discriminate.
    + intros t [= <-]. now split.
Qed.

Lemma recover_spec_witness :
  Either.recover (Either.Ok (JString "success")) (fun _ => Throw JNull)
  = Normal (Either.Ok (JString "success")).
Proof.
  apply (proj1 (proj2 (recover_spec (Either.Ok (JString "success"))
                         (fun _ => Throw JNull)))).
  reflexivity.
Defined.

(** X9: on an instance made by a factory, [recover(fn)] is
    [recoverWith] applied to [fn] followed by [Ok]. *)
Theorem recover_recoverWith (this : Either)
  (fn : JsValue -> Completion JsValue) :
  factory_made this = true ->
  Either.recover this fn
  = Either.recoverWith this (fun e => v <- fn e ;; Normal (Either.Ok v)).
Proof.
  intros H. apply factory_made_iff in H.
  unfold Either.recover, Either.recoverWith.
  destruct H as [[Heq Hok] | [Heq Herr]].
  - rewrite (isOk_true_isError _ Hok). now rewrite <- Heq.
  - now rewrite Herr.
Qed.

Lemma recover_recoverWith_witness :
  Either.recover (Either.Ok (JNumber 1)) double
  = Either.recoverWith (Either.Ok (JNumber 1))
      (fun e => v <- double e ;; Normal (Either.Ok v)).
Proof. apply (recover_recoverWith (Either.Ok (JNumber 1))). reflexivity. Defined.

(** X10: [tap] and [tapError] never change the instance: whenever they
    return, they return the instance itself; [tap] on a failure and
    [tapError] on a success return it without calling the function; and they
    throw only what the function throws on the payload. *)
Theorem tap_spec (this : Either) (fn : JsValue -> Completion unit) :
  (forall r, Either.tap this fn = Normal r -> r = this)
  /\ (forall r, Either.tapError this fn = Normal r -> r = this)
  /\ (Either.isError this = true -> Either.tap this fn = Normal this)
  /\ (Either.isOk this = true -> Either.tapError this fn = Normal this)
  /\ (forall t, Either.tap this fn = Throw t ->
                Either.isOk this = true /\ fn (value this) = Throw t)
  /\ (forall t, Either.tapError this fn = Throw t ->
                Either.isError this = true /\ fn (error this) = Throw t).
Proof.
  unfold Either.tap, Either.tapError, Either.isError, Either.isOk.
  destruct (_isOk this); simpl;
    destruct (fn (value this)) eqn:Hv; destruct (fn (error this)) eqn:He;
    simpl; repeat split; intros; congruence.
Qed.

Lemma tap_spec_witness :
  Either.tap (Either.Error (JString "failed")) (fun _ => Throw JNull)
  = Normal (Either.Error (JString "failed"))
  /\ Either.tapError (Either.Ok (JNumber 42)) (fun _ => Throw JNull)
     = Normal (Either.Ok (JNumber 42)).
Proof.
  split.
  - apply (proj1 (proj2 (proj2 (tap_spec (Either.Error (JString "failed"))
                                  (fun _ => Throw JNull))))).
    reflexivity.
  - apply (proj1 (proj2 (proj2 (proj2 (tap_spec (Either.Ok (JNumber 42))
                                         (fun _ => Throw JNull)))))).
    reflexivity.
Defined.

(** X11: [zipWith] applies the function to the two values when both
    instances are successes and wraps what it returns; when one is a failure
    the function is not called and the failure is the one [zip] gives, the
    left one first. *)
Theorem zipWith_spec (a b : Either)
  (fn : JsValue -> JsValue -> Completion JsValue) :
  (Either.isOk a = true -> Either.isOk b = true ->
   Either.zipWith a b fn
   = (r <- fn (value a) (value b) ;; Normal (Either.Ok r)))
  /\ (Either.isError a = true ->
      Either.zipWith a b fn = Normal (Either.Error (error a)))
  /\ (Either.isOk a = true -> Either.isError b = true ->
      Either.zipWith a b fn = Normal (Either.Error (error b))).
Proof.
  unfold Either.zipWith, Either.zip, Either.map, Either.getValue,
    Either.getError, Either.isError, Either.isOk.
  destruct (_isOk a), (_isOk b); simpl; repeat split; intros;
    try discriminate; reflexivity.
Qed.

Lemma zipWith_spec_witness :
  Either.zipWith (Either.Ok (JNumber 5)) (Either.Ok (JNumber 3))
    (fun x _ => double x)
  = Normal (Either.Ok (JNumber 10))
  /\ Either.zipWith (Either.Error (JString "e1")) (Either.Error (JString "e2"))
       (fun _ _ => Throw JNull)
     = Normal (Either.Error (JString "e1"))
  /\ Either.zipWith (Either.Ok (JNumber 5)) (Either.Error (JString "e2"))
       (fun _ _ => Throw JNull)
     = Normal (Either.Error (JString "e2")).
Proof.
  split; [| split].
  - apply (proj1 (zipWith_spec (Either.Ok (JNumber 5)) (Either.Ok (JNumber 3))
                    (fun x _ => double x))); reflexivity.
  - apply (proj1 (proj2 (zipWith_spec (Either.Error (JString "e1"))
                           (Either.Error (JString "e2")) (fun _ _ => Throw JNull)))).
    reflexivity.
  - apply (proj2 (proj2 (zipWith_spec (Either.Ok (JNumber 5))
                           (Either.Error (JString "e2")) (fun _ _ => Throw JNull))));
      reflexivity.
Defined.

(** X12: filtering twice with the same predicate and error is filtering
    once. *)
Theorem filter_idempotent (this : Either) (p : JsValue -> Completion bool)
  (errorIfFails : JsValue) :
  (r <- Either.filter this p errorIfFails ;; Either.filter r p errorIfFails)
  = Either.filter this p errorIfFails.
Proof.
  unfold Either.filter.
  destruct (Either.isOk this) eqn:Hok; [| reflexivity].
  destruct (p (value this)) as [[|] |] eqn:Hp; simpl; [| reflexivity ..].
  now rewrite Hok, Hp.
Qed.

(** X13: the result of [filter] is a success exactly when the instance is a
    success and the predicate holds of its value. *)
Theorem filter_state (this : Either) (p : JsValue -> Completion bool)
  (errorIfFails : JsValue) (r : Either) :
  Either.filter this p errorIfFails = Normal r ->
  (Either.isOk r = true <->
   Either.isOk this = true /\ p (value this) = Normal true).
Proof.
  unfold Either.filter.
  destruct (Either.isOk this) eqn:Hok.
  - destruct (p (value this)) as [[|] |]; simpl; intros [= <-].
    + now rewrite Hok.
    + split; [discriminate | intros [_ H]; discriminate H].
  - intros [= <-]. split; [discriminate | intros [H _]; discriminate H].
Qed.

Lemma filter_state_witness :
  Either.isOk (Either.Ok (JNumber 5)) = true <->
  Either.isOk (Either.Ok (JNumber 5)) = true
  /\ greater_than_3 (value (Either.Ok (JNumber 5))) = Normal true.
Proof.
  apply (filter_state (Either.Ok (JNumber 5)) greater_than_3 (JString "Too small")).
  reflexivity.
Defined.

(** X14: the methods keep the instances in the form the factories give
    them. [map], [mapError], [zip], [zipWith], [recover] and [swap] always
    return such an instance; [filter], [tap] and [tapError] do when the
    instance is one; [flatMap], [find] and [recoverWith] do when the function
    returns such instances (and, for [recoverWith], the instance is one). *)
Theorem methods_keep_factory_form (this : Either) :
  (forall fn r, Either.map this fn = Normal r -> factory_made r = true)
  /\ (forall fn r, Either.mapError this fn = Normal r -> factory_made r = true)
  /\ (forall other r, Either.zip this other = Normal r -> factory_made r = true)
  /\ (forall other fn r,
        Either.zipWith this other fn = Normal r -> factory_made r = true)
  /\ (forall fn r, Either.recover this fn = Normal r -> factory_made r = true)
  /\ factory_made (Either.swap this) = true
  /\ (factory_made this = true ->
      (forall p e r, Either.filter this p e = Normal r -> factory_made r = true)
      /\ (forall fn r, Either.tap this fn = Normal r -> factory_made r = true)
      /\ (forall fn r, Either.tapError this fn = Normal r -> factory_made r = true)
      /\ (forall fn,
            (forall x y, fn x = Normal y -> factory_made y = true) ->
            forall r, Either.recoverWith this fn = Normal r ->
                      factory_made r = true))
  /\ (forall fn,
        (forall x y, fn x = Normal y -> factory_made y = true) ->
        forall r, (Either.flatMap this fn = Normal r -> factory_made r = true)
                  /\ (Either.find this fn = Normal r -> factory_made r = true)).
Proof.
  unfold Either.find, Either.zipWith, Either.map, Either.mapError, Either.zip,
    Either.recover, Either.swap, Either.filter, Either.tap, Either.tapError,
    Either.recoverWith, Either.flatMap, Either.getValue, Either.getError,
    Either.isError, Either.isOk.
  repeat match goal with |- _ /\ _ => split end.
  - intros fn r H. destruct (_isOk this); returned; reflexivity.
  - intros fn r H. destruct (_isOk this); simpl in H; returned; reflexivity.
  - intros other r H.
    destruct (_isOk this), (_isOk other); simpl in H; returned; reflexivity.
  - intros other fn r H.
    destruct (_isOk this), (_isOk other); simpl in H; returned; reflexivity.
  - intros fn r H. destruct (_isOk this); simpl in H; returned; reflexivity.
  - destruct (_isOk this); reflexivity.
  - intros Hthis. repeat match goal with |- _ /\ _ => split end.
    + intros p e r H. destruct (_isOk this); returned;
        [destruct result |]; (exact Hthis || reflexivity).
    + intros fn r H. destruct (_isOk this); returned; exact Hthis.
    + intros fn r H. destruct (_isOk this); simpl in H; returned; exact Hthis.
    + intros fn Hfn r H. destruct (_isOk this); simpl in H.
      * returned. exact Hthis.
      * exact (Hfn _ _ H).
  - intros fn Hfn r.
    destruct (_isOk this); split; intros H; returned;
      (exact (Hfn _ _ H) || reflexivity).
Qed.

Lemma methods_keep_factory_form_witness :
  factory_made (Either.Error (JString "Too small")) = true.
Proof.
  exact (proj1 (proj1 (proj2 (proj2 (proj2 (proj2 (proj2 (proj2
           (methods_keep_factory_form (Either.Ok (JNumber 2))))))))) eq_refl)
           greater_than_3 (JString "Too small")
           (Either.Error (JString "Too small")) eq_refl).
Defined.

End Algebra.

(** * Further properties of the free functions *)

Section Conversions.

Import Host EitherTypes.
Local Open Scope string_scope.

(** X15: [fromNullable] gives a failure exactly on [null] and on
    [undefined], the failure wrapping an [Error] with the message "Value is
    null or undefined"; on every other value, also a falsy one, it gives
    [Ok] of the value. *)
Theorem fromNullable_spec (v : JsValue) :
  (Either.isError (fromNullable v) = true <-> v = JNull \/ v = JUndefined)
  /\ (Either.isError (fromNullable v) = true ->
      fromNullable v
      = Either.Error (JErrorObject "Error" "Value is null or undefined"))
  /\ (Either.isOk (fromNullable v) = true -> fromNullable v = Either.Ok v).
Proof.
  unfold fromNullable.
  destruct v; simpl; repeat split; intros; try discriminate; auto;
    match goal with H : _ \/ _ |- _ => destruct H; discriminate end.
Qed.

Lemma fromNullable_spec_witness :
  fromNullable (JNumber 0) = Either.Ok (JNumber 0)
  /\ fromNullable JUndefined
     = Either.Error (JErrorObject "Error" "Value is null or undefined").
Proof.
  split.
  - apply (proj2 (proj2 (fromNullable_spec (JNumber 0)))). reflexivity.
  - apply (proj1 (proj2 (fromNullable_spec JUndefined))). reflexivity.
Defined.

(** X16: [fromPredicate(value, predicate, error)] is
    [Ok(value).filter(predicate, error)]. *)
Theorem fromPredicate_filter (v : JsValue) (p : JsValue -> Completion bool)
  (e : JsValue) :
  fromPredicate v p e = Either.filter (Either.Ok v) p e.
Proof.
  unfold fromPredicate, Either.filter. simpl.
  destruct (p v) as [[|] |]; reflexivity.
Qed.

End Conversions.

Section MoreCollections.

Import Host EitherTypes.

Lemma filter_state_lengths (eithers : list Either) :
  List.length (List.filter Either.isOk eithers)
  + List.length (List.filter Either.isError eithers)
  = List.length eithers.
Proof.
  induction eithers as [| either rest IH]; simpl; [reflexivity |].
  unfold Either.isError at 1, Either.isOk at 1.
  destruct (_isOk either); simpl; lia.
Qed.

(** X17: [partition] loses and adds nothing: the two arrays it returns have
    together as many elements as the array it is given. *)
Theorem partition_length (eithers : list Either) (oks errors : list JsValue) :
  partition eithers = Normal (oks, errors) ->
  List.length oks + List.length errors = List.length eithers.
Proof.
  unfold partition. rewrite partition_loop_spec. simpl.
  intros [= <- <-]. rewrite !length_map. apply filter_state_lengths.
Qed.

Lemma partition_length_witness :
  List.length [JNumber 1; JNumber 2] + List.length [JString "a"]
  = List.length [Either.Ok (JNumber 1); Either.Error (JString "a");
                 Either.Ok (JNumber 2)].
Proof.
  apply (partition_length
           [Either.Ok (JNumber 1); Either.Error (JString "a"); Either.Ok (JNumber 2)]).
  reflexivity.
Defined.

(** X18: partitioning a concatenation is concatenating the partitions,
    bucket by bucket. *)
Theorem partition_app (l1 l2 : list Either)
  (oks1 errors1 oks2 errors2 : list JsValue) :
  partition l1 = Normal (oks1, errors1) ->
  partition l2 = Normal (oks2, errors2) ->
  partition (l1 ++ l2) = Normal (oks1 ++ oks2, errors1 ++ errors2).
Proof.
  unfold partition. rewrite !partition_loop_spec. simpl.
  intros [= <- <-] [= <- <-].
  now rewrite !filter_app, !map_app.
Qed.

Lemma partition_app_witness :
  partition ([Either.Ok (JNumber 1); Either.Error (JString "a")]
             ++ [Either.Error (JString "b"); Either.Ok (JNumber 2)])
  = Normal ([JNumber 1] ++ [JNumber 2], [JString "a"] ++ [JString "b"]).
Proof.
  apply (partition_app [Either.Ok (JNumber 1); Either.Error (JString "a")]
           [Either.Error (JString "b"); Either.Ok (JNumber 2)]); reflexivity.
Defined.

Lemma sequence_loop_partitioned (eithers : list Either) :
  forall results,
    sequence_loop eithers results
    = Normal (match List.map error (List.filter Either.isError eithers) with
              | [] => Either.Ok (JArray (results
                         ++ List.map value (List.filter Either.isOk eithers)))
              | e :: _ => Either.Error e
              end).
Proof.
  induction eithers as [| either rest IH]; intros results; simpl.
  - now rewrite app_nil_r.
  - unfold Either.getValue, Either.getError, Either.isError, Either.isOk.
    destruct (_isOk either); simpl; [| reflexivity].
    rewrite IH, <- app_assoc. reflexivity.
Qed.

(** X19: [sequence] agrees with [partition]: when the failure bucket of
    [partition] is empty it returns a success wrapping the success bucket,
    and otherwise a failure wrapping the first element of the failure
    bucket. *)
Theorem sequence_partition (eithers : list Either)
  (oks errors : list JsValue) :
  partition eithers = Normal (oks, errors) ->
  sequence eithers
  = Normal (match errors with
            | [] => Either.Ok (JArray oks)
            | e :: _ => Either.Error e
            end).
Proof.
  unfold partition, sequence.
  rewrite partition_loop_spec, sequence_loop_partitioned. simpl.
  now intros [= <- <-].
Qed.

Lemma sequence_partition_witness :
  sequence [Either.Ok (JNumber 1); Either.Error (JString "a");
            Either.Error (JString "b")]
  = Normal (Either.Error (JString "a")).
Proof.
  apply (sequence_partition
           [Either.Ok (JNumber 1); Either.Error (JString "a");
            Either.Error (JString "b")]
           [JNumber 1] [JString "a"; JString "b"]).
  reflexivity.
Defined.

(** X20: [sequence] and [sequenceAll] succeed on the same lists, and with the
    same result: one returns a success exactly when the other does, and then
    they return the same instance. *)
Theorem sequence_sequenceAll (eithers : list Either) :
  exists r rAll,
    sequence eithers = Normal r
    /\ sequenceAll eithers = Normal rAll
    /\ Either.isOk r = Either.isOk rAll
    /\ (Either.isOk r = true -> r = rAll).
Proof.
  unfold sequenceAll, sequence, partition.
  rewrite partition_loop_spec, sequence_loop_partitioned. simpl.
  destruct (List.map error (List.filter Either.isError eithers)) as [| e errs];
    simpl; do 2 eexists; repeat split.
  discriminate.
Qed.

Lemma sequence_sequenceAll_witness :
  exists r rAll,
    sequence [Either.Ok (JNumber 1); Either.Ok (JNumber 2)] = Normal r
    /\ sequenceAll [Either.Ok (JNumber 1); Either.Ok (JNumber 2)] = Normal rAll
    /\ Either.isOk r = Either.isOk rAll
    /\ (Either.isOk r = true -> r = rAll).
Proof.
  exact (sequence_sequenceAll [Either.Ok (JNumber 1); Either.Ok (JNumber 2)]).
Defined.

(** X21: wrapping every value of a list and sequencing gives the list back:
    [sequence], [traverse] with [Ok] and [sequenceAll] return a success
    wrapping the values, and [partition] puts them all in the success
    bucket. *)
Theorem sequence_of_Ok (values : list JsValue) :
  sequence (List.map Either.Ok values) = Normal (Either.Ok (JArray values))
  /\ traverse values (fun v => Normal (Either.Ok v))
     = Normal (Either.Ok (JArray values))
  /\ sequenceAll (List.map Either.Ok values)
     = Normal (Either.Ok (JArray values))
  /\ partition (List.map Either.Ok values) = Normal (values, []).
Proof.
  assert (Hok : List.filter Either.isOk (List.map Either.Ok values)
                = List.map Either.Ok values)
    by (induction values as [| v vs IH]; simpl; [| rewrite IH]; reflexivity).
  assert (Herr : List.filter Either.isError (List.map Either.Ok values) = [])
    by (clear Hok; induction values as [| v vs IH]; simpl;
        [reflexivity | exact IH]).
  assert (Hval : List.map value (List.map Either.Ok values) = values)
    by (rewrite map_map; apply map_id).
  assert (Hseq : sequence (List.map Either.Ok values)
                 = Normal (Either.Ok (JArray values))).
  { unfold sequence. rewrite sequence_loop_partitioned, Herr, Hok, Hval.
    reflexivity. }
  split; [exact Hseq |]. split.
  - unfold traverse. rewrite <- Hseq. unfold sequence.
    apply traverse_loop_mapped, (Array_map_total Either.Ok).
  - unfold sequenceAll, partition.
    rewrite partition_loop_spec, Herr, Hok, Hval. split; reflexivity.
Qed.

End MoreCollections.

Section Traversal.

Import Host EitherTypes.

Lemma traverse_loop_prefix (pre : list JsValue)
  (fn : JsValue -> Completion Either) :
  (forall v, In v pre -> exists r, fn v = Normal r /\ Either.isOk r = true) ->
  forall rest results,
  exists results',
    traverse_loop (pre ++ rest) fn results = traverse_loop rest fn results'.
Proof.
  induction pre as [| v pre IH]; intros Hpre rest results; simpl.
  - now exists results.
  - destruct (Hpre v (or_introl eq_refl)) as (r & -> & Hok). simpl.
    rewrite (isOk_true_isError _ Hok). unfold Either.getValue. rewrite Hok.
    simpl. apply IH. intros w Hw. apply Hpre. now right.
Qed.

(** X22: [traverse] stops at the first element on which the function gives a
    failure or throws: the elements after it are not visited, so what the
    function would do on them (also throw) does not matter. *)
Theorem traverse_short_circuit (pre post : list JsValue) (x : JsValue)
  (fn : JsValue -> Completion Either) :
  (forall v, In v pre -> exists r, fn v = Normal r /\ Either.isOk r = true) ->
  (forall failed, fn x = Normal failed -> Either.isError failed = true ->
     traverse (pre ++ x :: post) fn = Normal (Either.Error (error failed)))
  /\ (forall t, fn x = Throw t -> traverse (pre ++ x :: post) fn = Throw t).
Proof.
  intros Hpre. unfold traverse.
  destruct (traverse_loop_prefix pre fn Hpre (x :: post) []) as [results ->].
  simpl. split.
  - intros failed -> Hfail. simpl. rewrite Hfail.
    unfold Either.getError. now rewrite Hfail.
  - now intros t ->.
Qed.

Lemma traverse_short_circuit_witness :
  traverse ([JNumber 1] ++ JNumber 2 :: [JNumber 3])
    (fun v => match v with
              | JNumber 1 => Normal (Either.Ok v)
              | JNumber 2 => Normal (Either.Error (JString "Failed at 2"))
              | _ => Throw (JString "visited")
              end)
  = Normal (Either.Error (JString "Failed at 2")).
Proof.
  refine (proj1 (traverse_short_circuit [JNumber 1] [JNumber 3] (JNumber 2) _ _)
            (Either.Error (JString "Failed at 2")) eq_refl eq_refl).
  intros v [<- | []]. exists (Either.Ok (JNumber 1)). split; reflexivity.
Defined.

End Traversal.

Section FactoryForm.

Import Host EitherTypes.
Local Open Scope string_scope.

Lemma sequence_factory_made (eithers : list Either) (r : Either) :
  sequence eithers = Normal r -> factory_made r = true.
Proof.
  unfold sequence. rewrite sequence_loop_partitioned.
  destruct (List.map error (List.filter Either.isError eithers));
    intros [= <-]; reflexivity.
Qed.

Lemma traverse_loop_factory_made (values : list JsValue)
  (fn : JsValue -> Completion Either) :
  forall results r,
    traverse_loop values fn results = Normal r -> factory_made r = true.
Proof.
  induction values as [| v rest IH]; intros results r; simpl.
  - now intros [= <-].
  - destruct (fn v) as [either | t]; simpl; [| discriminate].
    unfold Either.getValue, Either.getError, Either.isError, Either.isOk.
    destruct (_isOk either); simpl.
    + apply IH.
    + now intros [= <-].
Qed.

(** X26: the free functions return instances in the form the factories give
    them: [fromNullable], [fromPredicate], [sequence], [traverse],
    [sequenceAll] and [safeSync] always, and [safeAsync] whenever the
    operation is not fulfilled with an instance of another form. *)
Theorem functions_give_factory_form :
  (forall v, factory_made (fromNullable v) = true)
  /\ (forall v p e r, fromPredicate v p e = Normal r -> factory_made r = true)
  /\ (forall eithers r, sequence eithers = Normal r -> factory_made r = true)
  /\ (forall values fn r, traverse values fn = Normal r -> factory_made r = true)
  /\ (forall eithers r, sequenceAll eithers = Normal r -> factory_made r = true)
  /\ (forall fn ErrClass r,
         safeSync fn ErrClass = Normal r -> factory_made r = true)
  /\ (forall fn ErrClass r,
         (forall v either, fn tt = Normal (Fulfilled v) ->
                           instanceof_Either v = Some either ->
                           factory_made either = true) ->
         safeAsync fn ErrClass = Fulfilled r -> factory_made r = true).
Proof.
  repeat match goal with |- _ /\ _ => split end.
  - intros v. unfold fromNullable. now destruct v.
  - intros v p e r. unfold fromPredicate.
    destruct (p v) as [[|] |]; simpl; intros H; returned; reflexivity.
  - apply sequence_factory_made.
  - intros values fn r. apply traverse_loop_factory_made.
  - intros eithers r. unfold sequenceAll, partition.
    rewrite partition_loop_spec. simpl.
    destruct (Nat.ltb _ _); intros [= <-]; reflexivity.
  - intros fn ErrClass r. unfold safeSync.
    destruct (fn tt) as [v | t]; simpl; intros H; returned; reflexivity.
  - intros fn ErrClass r Hinst. unfold safeAsync.
    destruct (fn tt) as [[v | reason] | t] eqn:Hfn; simpl.
    + destruct (instanceof_Either v) as [either |] eqn:Hv; simpl.
      * intros [= <-]. exact (Hinst v either eq_refl Hv).
      * now intros [= <-].
    + destruct (extractErrorMessage reason); simpl; [| discriminate].
      now intros [= <-].
    + destruct (extractErrorMessage t); simpl; [| discriminate].
      now intros [= <-].
Qed.

Lemma functions_give_factory_form_witness :
  factory_made (Either.Error (JString "a")) = true.
Proof.
  exact (proj1 (proj2 (proj2 functions_give_factory_form))
           [Either.Ok (JNumber 1); Either.Error (JString "a")]
           (Either.Error (JString "a")) eq_refl).
Defined.

End FactoryForm.
